(** * datadog-setup/app.py: the in-memory record API

    A shallow embedding of the Flask handlers of [app.py] and the proofs of
    the properties of its request/response contract.

    What the handlers obtain from outside the module is an input of the
    model: the strings [str(uuid.uuid4())] and the clock read by
    [datetime.now()] come from an [Env], one per handler invocation; what
    Flask's [request] proxy answers ([is_json], [get_json()], [remote_addr],
    [path]) comes from a [Request].  The module-level list [data_store] is
    the state threaded through every handler.  Logging is not modelled. *)

From Stdlib Require Import String Ascii List ZArith Bool Arith Lia.
From Stdlib Require Import DecimalString SpecFloat.
Import ListNotations.
Open Scope string_scope.

(** ** JSON values, as Python sees them after [json.loads] *)

(** [json.loads] yields [None], [bool], [int], [float], [str], [list] and
    [dict].  Python integers are unbounded; floats are IEEE-754 binary64,
    kept here in their specification form.  A [dict] is an association list
    in insertion order. *)
#[warnings="-register-all"]
Inductive json : Type :=
| JNull
| JBool (b : bool)
| JInt (n : Z)
| JFloat (x : spec_float)
| JString (s : string)
| JArray (l : list json)
| JObject (o : list (string * json)).

(** Python's truth value, the one [not request_data] tests: [None], [False],
    zero of either numeric type, and the empty string, list and dict are
    false; everything else is true. *)
Definition truthy (j : json) : bool :=
  match j with
  | JNull => false
  | JBool b => b
  | JInt n => negb (n =? 0)%Z
  | JFloat (S754_zero _) => false
  | JFloat _ => true
  | JString s => negb (String.length s =? 0)%nat
  | JArray l => negb (length l =? 0)%nat
  | JObject o => negb (length o =? 0)%nat
  end.

(** [d[k]] on a dict, [None] when the key is absent. *)
Fixpoint assoc (k : string) (o : list (string * json)) : option json :=
  match o with
  | [] => None
  | (k', v) :: o' => if k' =? k then Some v else assoc k o'
  end.

Definition dict_get (k : string) (j : json) : option json :=
  match j with
  | JObject o => assoc k o
  | _ => None
  end.

(** ** The clock: [datetime.now().isoformat()] *)

Record datetime : Type := {
  year : nat; month : nat; day : nat;
  hour : nat; minute : nat; second : nat;
  microsecond : nat
}.

(** [str(n)] for a non-negative [int]. *)
Definition str_int (n : nat) : string := NilZero.string_of_uint (Nat.to_uint n).

Fixpoint zeros (k : nat) : string :=
  match k with
  | O => ""
  | S k' => "0" ++ zeros k'
  end.

(** ["%0wd" % n] *)
Definition zfill (w n : nat) : string :=
  let s := str_int n in zeros (w - String.length s) ++ s.

(** [datetime.isoformat()] of a naive datetime: [YYYY-MM-DDTHH:MM:SS], with
    [.ffffff] appended when the microsecond is not zero. *)
Definition isoformat (d : datetime) : string :=
  zfill 4 (year d) ++ "-" ++ zfill 2 (month d) ++ "-" ++ zfill 2 (day d) ++ "T" ++
  zfill 2 (hour d) ++ ":" ++ zfill 2 (minute d) ++ ":" ++ zfill 2 (second d) ++
  (if (microsecond d =? 0)%nat then "" else "." ++ zfill 6 (microsecond d)).

(** ** Inputs of one handler invocation *)

Record Env : Type := {
  uuid4 : string;                 (* str(uuid.uuid4()) *)
  now : datetime;                 (* datetime.now() *)
  ENVIRONMENT : option string;    (* os.environ.get('ENVIRONMENT') *)
  sys_version : string;           (* os.sys.version *)
  os_name : string                (* os.name *)
}.

(** The exception [request.get_json()] raises when the body does not decode:
    werkzeug's [BadRequest], an [Exception]. *)
Inductive exn : Type :=
| BadRequest (description : string).

(** [str(e)] of an HTTP exception: code, name and description. *)
Definition str_exn (e : exn) : string :=
  match e with
  | BadRequest d => "400 Bad Request: " ++ d
  end.

(** What the handlers read from Flask's [request].  [is_json] is Flask's test
    of the content type ([application/json] or [application/*+json]).
    [get_json] is the outcome
    of [request.get_json()] on a request whose [is_json] holds: the decoded
    value, or the exception raised when [json.loads] rejects the body (a
    body of zero bytes included, the empty document is not JSON). *)
Record Request : Type := {
  is_json : bool;
  get_json : exn + json;
  remote_addr : option string;
  url : string;
  path : string
}.

(** ** Responses: [jsonify(dict), status] *)

Record Response : Type := {
  body : json;
  headers : list (string * string);
  status : nat
}.

Fixpoint set_header (k v : string) (h : list (string * string)) : list (string * string) :=
  match h with
  | [] => [(k, v)]
  | (k', v') :: h' => if k' =? k then (k, v) :: h' else (k', v') :: set_header k v h'
  end.

(** [jsonify(d)]: a response carrying [d], of content type JSON. *)
Definition jsonify (d : list (string * json)) : Response :=
  {| body := JObject d; headers := [("Content-Type", "application/json")]; status := 200 |}.

(** [response.headers[k] = v] *)
Definition with_header (k v : string) (r : Response) : Response :=
  {| body := body r; headers := set_header k v (headers r); status := status r |}.

(** [return response, code] *)
Definition with_status (r : Response) (code : nat) : Response :=
  {| body := body r; headers := headers r; status := code |}.

(** ** The store *)

(** The dict built at [new_item = {...}]; its four keys are fixed.
    [request.remote_addr] may be [None]. *)
Record Item : Type := {
  id : string;
  data : json;
  created_at : string;
  created_by : option string
}.

Definition opt_str (o : option string) : json :=
  match o with
  | Some s => JString s
  | None => JNull
  end.

(** The item as the dict that [jsonify] serialises. *)
Definition item_dict (it : Item) : json :=
  JObject [("id", JString (id it)); ("data", data it);
           ("created_at", JString (created_at it)); ("created_by", opt_str (created_by it))].

(** [data_store = []] *)
Definition Store : Type := list Item.
Definition data_store0 : Store := [].

Definition JLen (s : Store) : json := JInt (Z.of_nat (length s)).

(** ** Handlers: state and exceptions

    Code inside the [try] of [create_data] reads and mutates [data_store] and
    may raise.  A computation takes the store and gives back the store as it
    stands when the computation returns or raises. *)

Definition M (A : Type) : Type := Store -> (exn + A) * Store.

Definition ret {A} (a : A) : M A := fun s => (inr a, s).

Definition bind {A B} (m : M A) (f : A -> M B) : M B :=
  fun s => match m s with
           | (inr a, s') => f a s'
           | (inl e, s') => (inl e, s')
           end.

Definition raise_or_return {A} (r : exn + A) : M A := fun s => (r, s).

(** [data_store.append(item)] *)
Definition append (it : Item) : M unit := fun s => (inr tt, (s ++ [it])%list).

(** reading the global [data_store] *)
Definition get_store : M Store := fun s => (inr s, s).

(** [try: body  except Exception as e: handler(e)] where the handler does not
    raise. *)
Definition try_except {A} (m : M A) (handler : exn -> A) : Store -> A * Store :=
  fun s => match m s with
           | (inr a, s') => (a, s')
           | (inl e, s') => (handler e, s')
           end.

Declare Scope handler_scope.
Delimit Scope handler_scope with handler.
Notation "x <- m ;; k" := (bind m (fun x => k))
  (at level 61, m at next level, right associativity) : handler_scope.
Notation "m ;;; k" := (bind m (fun _ => k))
  (at level 61, right associativity) : handler_scope.

(** [health_check] *)
Definition health_check (e : Env) (s : Store) : Response * Store :=
  (with_status (jsonify [
     ("status", JString "healthy");
     ("service", JString "python-api");
     ("timestamp", JString (isoformat (now e)));
     ("version", JString "1.0.0")]) 200, s).

(** [root] *)
Definition root (e : Env) (s : Store) : Response * Store :=
  (with_status (jsonify [
     ("message", JString "Python API for ECS Fargate");
     ("service", JString "python-api");
     ("version", JString "1.0.0");
     ("endpoints", JObject [
        ("GET /", JString "API information");
        ("GET /health", JString "Health check");
        ("GET /api/data", JString "Get all data items");
        ("POST /api/data", JString "Create new data item");
        ("GET /api/data/<id>", JString "Get specific data item");
        ("GET /api/status", JString "Service status")]);
     ("timestamp", JString (isoformat (now e)))]) 200, s).

(** [get_data] *)
Definition get_data (e : Env) (s : Store) : Response * Store :=
  let response := jsonify [
     ("success", JBool true);
     ("data", JArray (map item_dict s));
     ("count", JLen s);
     ("timestamp", JString (isoformat (now e)))] in
  let response := with_header "Cache-Control" "no-cache, no-store, must-revalidate" response in
  let response := with_header "Pragma" "no-cache" response in
  let response := with_header "Expires" "0" response in
  let response := with_header "Content-Type" "application/json" response in
  (with_status response 200, s).

(** The body of the [try] block of [create_data]. *)
Definition create_data_try (e : Env) (request : Request) : M Response :=
  (if negb (is_json request) then
     ret (with_status (jsonify [
       ("success", JBool false);
       ("error", JString "Content-Type must be application/json")]) 400)
   else
     request_data <- raise_or_return (get_json request) ;;
     if negb (truthy request_data) then
       ret (with_status (jsonify [
         ("success", JBool false);
         ("error", JString "Request body cannot be empty")]) 400)
     else
       let new_item := {| id := uuid4 e;
                          data := request_data;
                          created_at := isoformat (now e);
                          created_by := remote_addr request |} in
       append new_item ;;;
       store <- get_store ;;
       let response := jsonify [
         ("success", JBool true);
         ("message", JString "Data created successfully");
         ("item", item_dict new_item);
         ("total_items", JLen store)] in
       let response := with_header "Content-Type" "application/json" response in
       let response := with_header "Cache-Control" "no-cache" response in
       ret (with_status response 201))%handler.

(** [create_data]: the [try] block under its [except Exception] clause. *)
Definition create_data (e : Env) (request : Request) : Store -> Response * Store :=
  try_except (create_data_try e request)
    (fun ex => with_status (jsonify [
       ("success", JBool false);
       ("error", JString "Internal server error");
       ("details", JString (str_exn ex))]) 500).

(** [next((item for item in data_store if item['id'] == item_id), None)] *)
Definition find_item (item_id : string) (s : Store) : option Item :=
  find (fun item => id item =? item_id) s.

(** [get_data_by_id].  [not item] holds for [None] only: a stored item is a
    dict of four keys, which is true. *)
Definition get_data_by_id (e : Env) (item_id : string) (s : Store) : Response * Store :=
  match find_item item_id s with
  | None =>
      (with_status (jsonify [
         ("success", JBool false);
         ("error", JString ("Item with ID " ++ item_id ++ " not found"))]) 404, s)
  | Some item =>
      (with_status (jsonify [
         ("success", JBool true);
         ("item", item_dict item);
         ("timestamp", JString (isoformat (now e)))]) 200, s)
  end.

(** [get_status] *)
Definition get_status (e : Env) (s : Store) : Response * Store :=
  (with_status (jsonify [
     ("service", JString "python-api");
     ("status", JString "running");
     ("version", JString "1.0.0");
     ("environment", JString (match ENVIRONMENT e with
                              | Some v => v
                              | None => "development"
                              end));
     ("statistics", JObject [
        ("total_items", JLen s);
        ("uptime", JString "running");
        ("last_activity", JString (isoformat (now e)))]);
     ("system_info", JObject [
        ("python_version", JString (sys_version e));
        ("platform", JString (os_name e))])]) 200, s).

(** [clear_data]: the global is rebound to a new empty list. *)
Definition clear_data (e : Env) (s : Store) : Response * Store :=
  let items_count := length s in
  (with_status (jsonify [
     ("success", JBool true);
     ("message", JString ("Cleared " ++ str_int items_count ++ " items"));
     ("timestamp", JString (isoformat (now e)))]) 200, []).

(** [not_found], the handler registered for 404 *)
Definition not_found (request : Request) (s : Store) : Response * Store :=
  (with_status (jsonify [
     ("success", JBool false);
     ("error", JString "Endpoint not found");
     ("requested_path", JString (path request))]) 404, s).

(** [internal_error], the handler registered for 500 *)
Definition internal_error (s : Store) : Response * Store :=
  (with_status (jsonify [
     ("success", JBool false);
     ("error", JString "Internal server error")]) 500, s).

(** ** Routing

    A request as Flask's router hands it over: the view function chosen by
    method and path, with what that function reads.  [Unmatched] is a request
    that matches no rule, answered by the 404 handler; [Failure] is a request
    whose view raised outside any [try], answered by the 500 handler. *)
Inductive Call : Type :=
| GET_health
| GET_root
| GET_api_data
| POST_api_data (request : Request)
| GET_api_data_id (item_id : string)
| GET_api_status
| DELETE_api_data
| Unmatched (request : Request)
| Failure.

Definition handle (e : Env) (c : Call) (s : Store) : Response * Store :=
  match c with
  | GET_health => health_check e s
  | GET_root => root e s
  | GET_api_data => get_data e s
  | POST_api_data request => create_data e request s
  | GET_api_data_id item_id => get_data_by_id e item_id s
  | GET_api_status => get_status e s
  | DELETE_api_data => clear_data e s
  | Unmatched request => not_found request s
  | Failure => internal_error s
  end.

(** Requests served one after the other by one process; the log pairs each
    call with its response. *)
Fixpoint run (t : list (Env * Call)) (s : Store) : list (Call * Response) * Store :=
  match t with
  | [] => ([], s)
  | (e, c) :: t' =>
      let (r, s1) := handle e c s in
      let (log, s2) := run t' s1 in
      ((c, r) :: log, s2)
  end.

Definition is_delete (c : Call) : bool :=
  match c with
  | DELETE_api_data => true
  | _ => false
  end.

Definition no_delete (t : list (Env * Call)) : bool :=
  forallb (fun ec => negb (is_delete (snd ec))) t.

(** ** Reading responses, as a client does *)

Definition field (k : string) (r : Response) : option json := dict_get k (body r).

(** [response['item']['id']] *)
Definition returned_id (r : Response) : option string :=
  match field "item" r with
  | Some it => match dict_get "id" it with
               | Some (JString i) => Some i
               | _ => None
               end
  | None => None
  end.

(** [response['item']['data']] *)
Definition returned_payload (r : Response) : option json :=
  match field "item" r with
  | Some it => dict_get "data" it
  | None => None
  end.

(** [response['statistics']['total_items']] *)
Definition statistics_total_items (r : Response) : option json :=
  match field "statistics" r with
  | Some st => dict_get "total_items" st
  | None => None
  end.

(** The exchanges of a log that created a record: only [create_data] answers
    201. *)
Definition created (x : Call * Response) : bool := (status (snd x) =? 201)%nat.

Definition successes (log : list (Call * Response)) : list (Call * Response) :=
  filter created log.

Definition payload_of (c : Call) : list json :=
  match c with
  | POST_api_data request =>
      match get_json request with
      | inr j => [j]
      | inl _ => []
      end
  | _ => []
  end.

(** The payloads of the successful POSTs of a log, in the order posted. *)
Definition posted (log : list (Call * Response)) : list json :=
  flat_map (fun x => payload_of (fst x)) (successes log).

(** The [item] of each 201 response of a log, in order. *)
Definition returned_items (log : list (Call * Response)) : list json :=
  flat_map (fun x => match field "item" (snd x) with
                     | Some it => [it]
                     | None => []
                     end) (successes log).

(** The ids handed out by the successful POSTs of a log. *)
Definition returned_ids (log : list (Call * Response)) : list string :=
  flat_map (fun x => match returned_id (snd x) with
                     | Some i => [i]
                     | None => []
                     end) (successes log).

(** [response.headers.get(k)] *)
Fixpoint get_header (k : string) (h : list (string * string)) : option string :=
  match h with
  | [] => None
  | (k', v) :: h' => if k' =? k then Some v else get_header k h'
  end.

Definition header (k : string) (r : Response) : option string :=
  get_header k (headers r).

(** The [total_items] of each 201 response of a log, in order. *)
Definition reported_totals (log : list (Call * Response)) : list json :=
  flat_map (fun x => match field "total_items" (snd x) with
                     | Some n => [n]
                     | None => []
                     end) (successes log).

(** The ids the uuid source holds ready for the POSTs of a run; [create_data]
    is the only view that calls [uuid.uuid4()]. *)
Definition drawn (t : list (Env * Call)) : list string :=
  flat_map (fun ec => match snd ec with
                      | POST_api_data _ => [uuid4 (fst ec)]
                      | _ => []
                      end) t.

(** ** Sample inputs *)

Definition noon : datetime :=
  {| year := 2024; month := 5; day := 17; hour := 12; minute := 0; second := 9;
     microsecond := 0 |}.

Definition env1 : Env :=
  {| uuid4 := "3f2b8c1e-0d4a-4f6b-9c3e-7a1d5e8b2f10"; now := noon;
     ENVIRONMENT := None; sys_version := "3.11.4"; os_name := "posix" |}.

Definition env2 : Env :=
  {| uuid4 := "a87ff679-a2f3-471d-8b5c-2c1e0f9d4b6a";
     now := {| year := 2024; month := 5; day := 17; hour := 12; minute := 0; second := 10;
               microsecond := 250 |};
     ENVIRONMENT := Some "production"; sys_version := "3.11.4"; os_name := "posix" |}.

(** A POST of content type JSON whose body decodes to [j]. *)
Definition json_post (j : json) : Request :=
  {| is_json := true; get_json := inr j; remote_addr := Some "10.0.0.7";
     url := "http://api/api/data"; path := "/api/data" |}.

(** A POST of content type JSON with a body of zero bytes: [json.loads]
    rejects it and [get_json()] raises [BadRequest] with werkzeug's default
    description. *)
Definition empty_post : Request :=
  {| is_json := true;
     get_json := inl (BadRequest
       "The browser (or proxy) sent a request that this server could not understand.");
     remote_addr := Some "10.0.0.7"; url := "http://api/api/data"; path := "/api/data" |}.

(** A POST of content type [text/plain]; the handler returns before it would
    call [get_json()]. *)
Definition text_post : Request :=
  {| is_json := false; get_json := inl (BadRequest "Did not attempt to load JSON data");
     remote_addr := Some "10.0.0.7"; url := "http://api/api/data"; path := "/api/data" |}.

Definition widget : json := JObject [("name", JString "widget")].

(** Two items stored under one id, as a repeated uuid would leave them. *)
Definition twin_store : Store :=
  [ {| id := "k1"; data := JInt 1; created_at := "2024-05-17T12:00:09";
       created_by := Some "10.0.0.7" |};
    {| id := "k2"; data := JInt 2; created_at := "2024-05-17T12:00:10";
       created_by := None |};
    {| id := "k1"; data := JInt 3; created_at := "2024-05-17T12:00:11";
       created_by := Some "10.0.0.8" |} ].

(** ** Proof support *)

Arguments isoformat : simpl never.
Arguments str_int : simpl never.

Ltac unfold_create :=
  unfold create_data, create_data_try, try_except, bind, raise_or_return, ret,
    append, get_store.

(** Splits a goal about [create_data e request s] along its four exits: the
    body did not decode, decoded to a true value, decoded to a false one, or
    the request was not JSON. *)
Ltac create_cases request :=
  unfold_create;
  let j := fresh "j" in
  let ex := fresh "ex" in
  destruct (is_json request) eqn:?; cbn [negb];
  [ destruct (get_json request) as [ex | j] eqn:?;
    [ | destruct (truthy j) eqn:?; cbn [negb] ]
  | ].

(** * Sample runs *)

Example isoformat_noon : isoformat noon = "2024-05-17T12:00:09".
Proof. reflexivity. Qed.

Example isoformat_micro : isoformat (now env2) = "2024-05-17T12:00:10.000250".
Proof. reflexivity. Qed.

Example post_widget :
  let (r, s) := create_data env1 (json_post widget) data_store0 in
  status r = 201 /\
  returned_payload r = Some widget /\
  returned_id r = Some (uuid4 env1) /\
  field "total_items" r = Some (JInt 1) /\
  field "count" (fst (get_data env2 s)) = Some (JInt 1).
Proof. cbv. repeat split. Qed.

Example clear_two :
  field "message" (fst (clear_data env1
    (snd (run [(env1, POST_api_data (json_post widget)); (env2, POST_api_data (json_post (JInt 3)))]
              data_store0)))) = Some (JString "Cleared 2 items").
Proof. reflexivity. Qed.

(** * The four exits of [create_data] *)

Section CreateData.
Variables (e : Env) (request : Request) (s : Store).

Lemma create_data_not_json :
  is_json request = false ->
  create_data e request s =
    (with_status (jsonify [("success", JBool false);
                           ("error", JString "Content-Type must be application/json")]) 400, s).
Proof. intros H. unfold_create. rewrite H. reflexivity. Qed.

Lemma create_data_raises ex :
  is_json request = true -> get_json request = inl ex ->
  create_data e request s =
    (with_status (jsonify [("success", JBool false);
                           ("error", JString "Internal server error");
                           ("details", JString (str_exn ex))]) 500, s).
Proof. intros H1 H2. unfold_create. rewrite H1, H2. reflexivity. Qed.

Lemma create_data_empty j :
  is_json request = true -> get_json request = inr j -> truthy j = false ->
  create_data e request s =
    (with_status (jsonify [("success", JBool false);
                           ("error", JString "Request body cannot be empty")]) 400, s).
Proof. intros H1 H2 H3. unfold_create. rewrite H1, H2. cbn. rewrite H3. reflexivity. Qed.

Lemma create_data_created j :
  is_json request = true -> get_json request = inr j -> truthy j = true ->
  let new_item := {| id := uuid4 e; data := j; created_at := isoformat (now e);
                     created_by := remote_addr request |} in
  create_data e request s =
    (with_status
       (with_header "Cache-Control" "no-cache"
          (with_header "Content-Type" "application/json"
             (jsonify [("success", JBool true);
                       ("message", JString "Data created successfully");
                       ("item", item_dict new_item);
                       ("total_items", JLen (s ++ [new_item])%list)]))) 201,
     (s ++ [new_item])%list).
Proof. intros H1 H2 H3. unfold_create. rewrite H1, H2. cbn. rewrite H3. reflexivity. Qed.

(** A 201 tells the request was JSON and its body decoded to a true value. *)
Lemma created_inv :
  status (fst (create_data e request s)) = 201 ->
  is_json request = true /\ exists j, get_json request = inr j /\ truthy j = true.
Proof.
  create_cases request; cbn; intros H; try discriminate.
  split; [reflexivity | eauto].
Qed.

(** Every exit other than 201 leaves the store as it was. *)
Lemma create_data_store :
  snd (create_data e request s) = s \/
  status (fst (create_data e request s)) = 201.
Proof. create_cases request; cbn; auto. Qed.

End CreateData.

(** * One request *)

(** What a single call does to the store, and what its response shows of it:
    a call reads (the store is left alone and nothing is created), clears, or
    creates one item that is appended and echoed in the response. *)
Lemma handle_step e c s :
  let r := fst (handle e c s) in
  let s' := snd (handle e c s) in
  (is_delete c = false /\ created (c, r) = false /\ s' = s) \/
  (is_delete c = true /\ created (c, r) = false /\ s' = []) \/
  (is_delete c = false /\ created (c, r) = true /\
   exists it, s' = (s ++ [it])%list /\ id it = uuid4 e /\
              payload_of c = [data it] /\
              field "item" r = Some (item_dict it) /\
              returned_id r = Some (id it)).
Proof.
  destruct c as [ | | | request | item_id | | | request | ]; cbn [handle];
    try (left; repeat split; reflexivity).
  - create_cases request; cbn - [item_dict].
    + left. repeat split.
    + right. right. repeat split.
      eexists. repeat split. cbn. rewrite Heqs0. reflexivity.
    + left. repeat split.
    + left. repeat split.
  - left. unfold get_data_by_id. destruct (find_item item_id s); repeat split.
  - right. left. repeat split.
Qed.

Lemma run_cons e c t s :
  run ((e, c) :: t) s =
    ((c, fst (handle e c s)) :: fst (run t (snd (handle e c s))),
     snd (run t (snd (handle e c s)))).
Proof.
  cbn [run]. destruct (handle e c s) as [r s1]. cbn [fst snd].
  destruct (run t s1) as [log s2]. reflexivity.
Qed.

Lemma successes_cons x log :
  successes (x :: log) = if created x then x :: successes log else successes log.
Proof. reflexivity. Qed.

(** * Runs without DELETE: the store grows by the items created, in order *)

Lemma run_no_delete t : forall s,
  no_delete t = true ->
  exists items,
    snd (run t s) = (s ++ items)%list /\
    map item_dict items = returned_items (fst (run t s)) /\
    map data items = posted (fst (run t s)) /\
    length items = length (successes (fst (run t s))).
Proof.
  induction t as [ | [e c] t IH]; intros s Hnd.
  - exists []. cbn. rewrite app_nil_r. auto.
  - cbn [no_delete forallb snd] in Hnd. apply andb_prop in Hnd as [Hc Ht].
    fold (no_delete t) in Ht. apply negb_true_iff in Hc.
    rewrite run_cons. pose proof (handle_step e c s) as H.
    destruct (handle e c s) as [r s1]. cbn [fst snd] in *.
    unfold returned_items, posted. rewrite successes_cons.
    destruct H as [(_ & Hcr & ->) | [(Hd & _) | (_ & Hcr & it & -> & _ & Hp & Hi & _)]];
      [ | congruence | ]; rewrite Hcr.
    + apply IH, Ht.
    + destruct (IH (s ++ [it])%list Ht) as (items & E & Ei & Ep & El).
      exists (it :: items). rewrite E, <- app_assoc.
      cbn [app flat_map fst snd map length]. rewrite Hp, Hi. cbn [app].
      unfold returned_items, posted in Ei, Ep. rewrite Ei, Ep, El. auto.
Qed.

(** * Any run: every stored id was handed out by a successful POST *)

Lemma run_ids t : forall s,
  incl (map id (snd (run t s))) (map id s ++ returned_ids (fst (run t s))).
Proof.
  induction t as [ | [e c] t IH]; intros s.
  - cbn. rewrite app_nil_r. apply incl_refl.
  - rewrite run_cons. pose proof (handle_step e c s) as H.
    destruct (handle e c s) as [r s1]. cbn [fst snd] in *.
    unfold returned_ids. rewrite successes_cons.
    destruct H as [(_ & Hcr & ->) | [(_ & Hcr & ->) | (_ & Hcr & it & -> & _ & _ & _ & Hi)]];
      rewrite Hcr; fold (returned_ids (fst (run t s)));
      fold (returned_ids (fst (run t []))).
    + apply IH.
    + intros i Hin. apply in_or_app. right. apply (IH []), Hin.
    + cbn [flat_map snd]. rewrite Hi. cbn [app].
      fold (returned_ids (fst (run t (s ++ [it])%list))).
      intros i Hin. apply IH in Hin. rewrite map_app, <- app_assoc in Hin. exact Hin.
Qed.

(** * Lookup by id: the first match of a linear scan *)

Lemma find_item_app_fresh i s l :
  ~ In i (map id s) -> find_item i (s ++ l)%list = find_item i l.
Proof.
  unfold find_item. induction s as [ | it s IH]; cbn [app find map]; intros H.
  - reflexivity.
  - destruct (String.eqb_spec (id it) i) as [E | _].
    + exfalso. apply H. left. exact E.
    + apply IH. intros Hin. apply H. right. exact Hin.
Qed.

Lemma find_item_head it l : find_item (id it) (it :: l) = Some it.
Proof. unfold find_item. cbn [find]. rewrite String.eqb_refl. reflexivity. Qed.

Lemma find_item_absent i s : ~ In i (map id s) -> find_item i s = None.
Proof.
  intros H. rewrite <- (app_nil_r s). rewrite find_item_app_fresh by exact H.
  reflexivity.
Qed.

Lemma item_dict_data it : dict_get "data" (item_dict it) = Some (data it).
Proof. reflexivity. Qed.

(** * Creation and lookup *)

(** C1.  Round trip: when POST /api/data answers 201 for a body that decodes
    to [P], the response carries an id, and after any further requests other
    than DELETE, GET /api/data/{that id} answers 200 with an item whose [data]
    is [P].  The id drawn by [uuid.uuid4()] is assumed not to be one already
    in the store, as the lookup returns the first item carrying the id. *)
Theorem post_then_get_by_id e request s P t e' :
  get_json request = inr P ->
  status (fst (create_data e request s)) = 201 ->
  ~ In (uuid4 e) (map id s) ->
  no_delete t = true ->
  exists i,
    returned_id (fst (create_data e request s)) = Some i /\
    let r := fst (get_data_by_id e' i (snd (run t (snd (create_data e request s))))) in
    status r = 200 /\ returned_payload r = Some P.
Proof.
  intros HP H201 Hfresh Hnd.
  destruct (created_inv e request s H201) as (Hj & j & Hget & Htrue).
  assert (j = P) as -> by congruence.
  rewrite (create_data_created e request s P Hj Hget Htrue).
  cbn [fst snd]. exists (uuid4 e). split; [reflexivity | ].
  set (it := {| id := uuid4 e; data := P; created_at := isoformat (now e);
                created_by := remote_addr request |}).
  destruct (run_no_delete t (s ++ [it])%list Hnd) as (items & -> & _).
  unfold get_data_by_id.
  rewrite <- app_assoc, find_item_app_fresh by exact Hfresh.
  cbn [app]. change (uuid4 e) with (id it). rewrite find_item_head.
  split; reflexivity.
Qed.

Lemma post_then_get_by_id_witness :
  exists i,
    returned_id (fst (create_data env1 (json_post widget) data_store0)) = Some i /\
    let r := fst (get_data_by_id env2 i
                    (snd (run [(env2, GET_api_data); (env2, POST_api_data (json_post (JInt 3)))]
                              (snd (create_data env1 (json_post widget) data_store0))))) in
    status r = 200 /\ returned_payload r = Some widget.
Proof.
  apply (post_then_get_by_id env1 (json_post widget) data_store0 widget
           [(env2, GET_api_data); (env2, POST_api_data (json_post (JInt 3)))] env2).
  - reflexivity.
  - reflexivity.
  - cbn. tauto.
  - reflexivity.
Defined.

(** * Validation *)

(** C2, as the code has it.  A POST of content type JSON whose body decodes
    to [j] is answered 201 when [j] is true in Python's sense and 400
    otherwise; the values answered 400 are exactly [null], [false], the
    numbers zero, the empty string, the empty array and the empty object. *)
Theorem post_accepts_truthy e request s j :
  is_json request = true ->
  get_json request = inr j ->
  status (fst (create_data e request s)) = (if truthy j then 201 else 400) /\
  (truthy j = false <->
   j = JNull \/ j = JBool false \/ j = JInt 0 \/ (exists sg, j = JFloat (S754_zero sg)) \/
   j = JString "" \/ j = JArray [] \/ j = JObject []).
Proof.
  intros Hj Hget. split.
  - destruct (truthy j) eqn:Ht.
    + rewrite (create_data_created e request s j Hj Hget Ht). reflexivity.
    + rewrite (create_data_empty e request s j Hj Hget Ht). reflexivity.
  - split.
    + destruct j as [ | [ | ] | n | [sg | sg | | sg m ex] | [ | a str] | [ | x l] | [ | x o]];
        cbn; intros H; try discriminate; auto 10.
      * apply negb_false_iff, Z.eqb_eq in H. subst n. auto.
      * right. right. right. left. exists sg. reflexivity.
    + intros [-> | [-> | [-> | [[sg ->] | [-> | [-> | ->]]]]]]; reflexivity.
Qed.

Lemma post_accepts_truthy_witness :
  status (fst (create_data env1 (json_post (JArray [])) data_store0)) =
    (if truthy (JArray []) then 201 else 400) /\
  (truthy (JArray []) = false <->
   JArray [] = JNull \/ JArray [] = JBool false \/ JArray [] = JInt 0 \/
   (exists sg, JArray [] = JFloat (S754_zero sg)) \/
   JArray [] = JString "" \/ JArray [] = JArray [] \/ JArray [] = JObject []).
Proof.
  apply (post_accepts_truthy env1 (json_post (JArray [])) data_store0 (JArray []));
    reflexivity.
Defined.

(** C2, as stated, fails: the empty object, the empty array, zero, [false]
    and the empty string are well-formed JSON values and each is answered
    400. *)
Lemma falsy_payloads_rejected :
  status (fst (create_data env1 (json_post (JObject [])) data_store0)) = 400 /\
  status (fst (create_data env1 (json_post (JArray [])) data_store0)) = 400 /\
  status (fst (create_data env1 (json_post (JInt 0)) data_store0)) = 400 /\
  status (fst (create_data env1 (json_post (JBool false)) data_store0)) = 400 /\
  status (fst (create_data env1 (json_post (JString "")) data_store0)) = 400.
Proof. repeat split. Qed.

(** C3.  The body that [json.loads] rejects: [request.get_json()] raises
    inside the [try], the [except Exception] clause answers, and the status
    is 500 with the error text of an internal failure; the store is left as
    it was. *)
Theorem undecodable_body_500 e s d a u p :
  let request := {| is_json := true; get_json := inl (BadRequest d);
                    remote_addr := a; url := u; path := p |} in
  let r := fst (create_data e request s) in
  status r = 500 /\
  field "success" r = Some (JBool false) /\
  field "error" r = Some (JString "Internal server error") /\
  field "details" r = Some (JString ("400 Bad Request: " ++ d)) /\
  snd (create_data e request s) = s.
Proof. repeat split. Qed.

(** The two exits of [create_data] that answer 400 leave the store as it
    was: a POST that is not of content type JSON, or whose body decodes to a
    false value. *)
Lemma rejected_post_leaves_store e request s :
  is_json request = false \/ (exists j, get_json request = inr j /\ truthy j = false) ->
  status (fst (create_data e request s)) = 400 /\
  snd (create_data e request s) = s.
Proof.
  intros [Hn | (j & Hget & Hf)].
  - rewrite (create_data_not_json e request s Hn). split; reflexivity.
  - destruct (is_json request) eqn:Hj.
    + rewrite (create_data_empty e request s j Hj Hget Hf). split; reflexivity.
    + rewrite (create_data_not_json e request s Hj). split; reflexivity.
Qed.

Lemma rejected_post_leaves_store_witness :
  status (fst (create_data env2 text_post
                 (snd (create_data env1 (json_post widget) data_store0)))) = 400 /\
  snd (create_data env2 text_post (snd (create_data env1 (json_post widget) data_store0))) =
    snd (create_data env1 (json_post widget) data_store0).
Proof.
  apply (rejected_post_leaves_store env2 text_post
           (snd (create_data env1 (json_post widget) data_store0))).
  left. reflexivity.
Defined.

(** C5.  A POST of content type JSON with an empty body, sent to a store
    holding one item: the store is left as it was, yet the status is 500 and
    not 400, since the body does not decode and [get_json()] raises before the
    test [not request_data] is reached. *)
Theorem empty_body_json_post_500 :
  let s := snd (create_data env1 (json_post widget) data_store0) in
  length s = 1 /\
  status (fst (create_data env2 empty_post s)) = 500 /\
  snd (create_data env2 empty_post s) = s.
Proof. repeat split. Qed.

(** * Timestamps *)

(** C4, as the code has it.  The responses of GET /health, GET /, GET
    /api/data, DELETE /api/data and the 200 of GET /api/data/{id} carry a
    top-level [timestamp], the ISO format of the clock read while the
    response is built; the responses of POST /api/data, of GET /api/status
    and every error response carry none.  The 201 of POST holds the time in
    [item.created_at] and /api/status in [statistics.last_activity]. *)
Theorem timestamp_by_route e c s :
  let r := fst (handle e c s) in
  match c with
  | GET_health | GET_root | GET_api_data | DELETE_api_data =>
      field "timestamp" r = Some (JString (isoformat (now e)))
  | GET_api_data_id _ =>
      field "timestamp" r =
        if (status r =? 200)%nat then Some (JString (isoformat (now e))) else None
  | POST_api_data _ =>
      field "timestamp" r = None /\
      (status r = 201 ->
       exists it, field "item" r = Some it /\
                  dict_get "created_at" it = Some (JString (isoformat (now e))))
  | GET_api_status =>
      field "timestamp" r = None /\
      (exists st, field "statistics" r = Some st /\
                  dict_get "last_activity" st = Some (JString (isoformat (now e))))
  | Unmatched _ | Failure => field "timestamp" r = None
  end.
Proof.
  destruct c as [ | | | request | item_id | | | request | ]; cbn [handle];
    try reflexivity.
  - create_cases request; cbn; split; try reflexivity; try discriminate.
    intros _. eexists. split; reflexivity.
  - unfold get_data_by_id. destruct (find_item item_id s); reflexivity.
  - split; [reflexivity | ]. eexists. split; reflexivity.
Qed.

(** C4, as stated, fails: the 201 of POST /api/data, the response of GET
    /api/status and the 404 of an unmatched path have no top-level
    [timestamp]. *)
Lemma responses_without_timestamp :
  status (fst (handle env1 (POST_api_data (json_post widget)) data_store0)) = 201 /\
  field "timestamp" (fst (handle env1 (POST_api_data (json_post widget)) data_store0)) = None /\
  field "timestamp" (fst (handle env1 GET_api_status data_store0)) = None /\
  field "timestamp" (fst (handle env1 (Unmatched text_post) data_store0)) = None.
Proof. repeat split. Qed.

(** * Listing and counting *)

(** C6.  From the empty store, after a run without DELETE in which N POSTs
    were answered 201, GET /api/data lists exactly the N items those
    responses returned, in that order, their payloads being the bodies posted
    in the order posted, with [count] N; GET /api/status reports
    [statistics.total_items] N. *)
Theorem posts_then_list t e :
  no_delete t = true ->
  let log := fst (run t data_store0) in
  let s := snd (run t data_store0) in
  let N := length (successes log) in
  let r := fst (get_data e s) in
  status r = 200 /\
  field "data" r = Some (JArray (returned_items log)) /\
  length (returned_items log) = N /\
  map (dict_get "data") (returned_items log) = map Some (posted log) /\
  field "count" r = Some (JInt (Z.of_nat N)) /\
  statistics_total_items (fst (get_status e s)) = Some (JInt (Z.of_nat N)).
Proof.
  intros Hnd. cbn zeta.
  destruct (run_no_delete t data_store0 Hnd) as (items & Hs & Hi & Hp & Hl).
  cbn [app data_store0] in Hs. rewrite Hs, <- Hi, <- Hp, <- Hl.
  unfold field, statistics_total_items, field, JLen. cbn.
  rewrite !length_map, !map_map. repeat split.
Qed.

Lemma posts_then_list_witness :
  let t := [(env1, POST_api_data (json_post widget)); (env2, POST_api_data text_post);
            (env2, GET_api_data_id "nope"); (env2, POST_api_data (json_post (JInt 3)))] in
  let log := fst (run t data_store0) in
  let s := snd (run t data_store0) in
  let N := length (successes log) in
  let r := fst (get_data env1 s) in
  N = 2 /\
  posted log = [widget; JInt 3] /\
  (status r = 200 /\
   field "data" r = Some (JArray (returned_items log)) /\
   length (returned_items log) = N /\
   map (dict_get "data") (returned_items log) = map Some (posted log) /\
   field "count" r = Some (JInt (Z.of_nat N)) /\
   statistics_total_items (fst (get_status env1 s)) = Some (JInt (Z.of_nat N))).
Proof.
  split; [reflexivity | ]. split; [reflexivity | ].
  apply (posts_then_list
           [(env1, POST_api_data (json_post widget)); (env2, POST_api_data text_post);
            (env2, GET_api_data_id "nope"); (env2, POST_api_data (json_post (JInt 3)))] env1).
  reflexivity.
Defined.

(** C7.  Whatever the store holds, DELETE /api/data answers 200 with
    [success] true and a message giving the number of items cleared, and the
    GET /api/data that follows answers with [count] 0 and an empty [data]
    array. *)
Theorem delete_then_list e1 e2 s :
  let r1 := fst (handle e1 DELETE_api_data s) in
  let r2 := fst (handle e2 GET_api_data (snd (handle e1 DELETE_api_data s))) in
  status r1 = 200 /\
  field "success" r1 = Some (JBool true) /\
  field "message" r1 = Some (JString ("Cleared " ++ str_int (length s) ++ " items")) /\
  status r2 = 200 /\
  field "count" r2 = Some (JInt 0) /\
  field "data" r2 = Some (JArray []).
Proof. repeat split. Qed.

(** C8.  From the empty store, after any run, an id that no 201 response of
    the run returned matches no stored item: GET /api/data/{id} answers 404
    with [success] false and the error text naming the id. *)
Theorem unknown_id_404 t i e :
  ~ In i (returned_ids (fst (run t data_store0))) ->
  let r := fst (get_data_by_id e i (snd (run t data_store0))) in
  ~ In i (map id (snd (run t data_store0))) /\
  status r = 404 /\
  field "success" r = Some (JBool false) /\
  field "error" r = Some (JString ("Item with ID " ++ i ++ " not found")).
Proof.
  intros Hnew.
  assert (~ In i (map id (snd (run t data_store0)))) as Hout.
  { intros Hin. apply Hnew. apply (run_ids t data_store0) in Hin. exact Hin. }
  cbn zeta. unfold get_data_by_id. rewrite (find_item_absent _ _ Hout).
  repeat split. exact Hout.
Qed.

Lemma unknown_id_404_witness :
  let t := [(env1, POST_api_data (json_post widget)); (env2, GET_api_data)] in
  let i := "a87ff679-a2f3-471d-8b5c-2c1e0f9d4b6a" in
  let r := fst (get_data_by_id env2 i (snd (run t data_store0))) in
  ~ In i (map id (snd (run t data_store0))) /\
  status r = 404 /\
  field "success" r = Some (JBool false) /\
  field "error" r =
    Some (JString "Item with ID a87ff679-a2f3-471d-8b5c-2c1e0f9d4b6a not found").
Proof.
  apply (unknown_id_404 [(env1, POST_api_data (json_post widget)); (env2, GET_api_data)]
           "a87ff679-a2f3-471d-8b5c-2c1e0f9d4b6a" env2).
  cbn. intros [H | []]. discriminate H.
Defined.

(** C10.  In every GET /api/data response [count] is the length of the [data]
    array.  When POST /api/data answers 201 the store is the former one with
    the returned item appended last, and [total_items] is its length, at
    least 1; on any other answer the store is the former one. *)
Theorem response_counts e request s :
  (exists l, field "data" (fst (get_data e s)) = Some (JArray l) /\
             field "count" (fst (get_data e s)) = Some (JInt (Z.of_nat (length l)))) /\
  let r := fst (create_data e request s) in
  let s' := snd (create_data e request s) in
  if (status r =? 201)%nat then
    exists it, s' = (s ++ [it])%list /\
               field "item" r = Some (item_dict it) /\
               field "total_items" r = Some (JInt (Z.of_nat (length s'))) /\
               1 <= length s' /\
               nth_error s' (length s' - 1) = Some it
  else s' = s.
Proof.
  split.
  - exists (map item_dict s). unfold get_data, field, JLen. cbn.
    rewrite length_map. split; reflexivity.
  - create_cases request; cbn - [item_dict nth_error]; try reflexivity.
    eexists. split; [reflexivity | ]. split; [reflexivity | ].
    split; [reflexivity | ]. rewrite length_app. cbn [length]. split; [lia | ].
    rewrite nth_error_app2 by lia.
    replace (length s + 1 - 1 - length s) with 0 by lia. reflexivity.
Qed.

(** * Every route: effect on the store, status, envelope, headers *)

(** X1.  Effect of each route on the store: DELETE /api/data empties it, POST
    /api/data leaves it or appends one item, every other route leaves it; and
    the answers of GET /health, GET /, the 404 handler and the 500 handler
    are the same whatever the store holds. *)
Theorem store_effect_by_route e c s s0 :
  let s' := snd (handle e c s) in
  match c with
  | DELETE_api_data => s' = []
  | POST_api_data _ => s' = s \/ exists it, s' = (s ++ [it])%list
  | GET_api_data | GET_api_data_id _ | GET_api_status => s' = s
  | GET_health | GET_root | Unmatched _ | Failure =>
      s' = s /\ fst (handle e c s) = fst (handle e c s0)
  end.
Proof.
  destruct c as [ | | | request | item_id | | | request | ]; cbn [handle];
    try (split; reflexivity); try reflexivity.
  - create_cases request; cbn [snd]; eauto.
  - unfold get_data_by_id. destruct (find_item item_id s); reflexivity.
Qed.

Lemma find_item_some_iff i s :
  (exists it, find_item i s = Some it) <-> In i (map id s).
Proof.
  unfold find_item. split.
  - intros [it H]. apply find_some in H as [Hin E].
    apply String.eqb_eq in E. subst i. apply in_map, Hin.
  - intros H. destruct (find (fun item => id item =? i) s) as [it | ] eqn:E.
    + eauto.
    + exfalso. apply in_map_iff in H as (it & Hid & Hin).
      apply (find_none _ _ E) in Hin. cbn in Hin. rewrite Hid, String.eqb_refl in Hin.
      discriminate.
Qed.

(** X2.  The status of every route: 200 for GET /health, GET /, GET
    /api/data, GET /api/status and DELETE /api/data; for POST /api/data, 400
    when the request is not JSON, 500 when the body does not decode, 400 when
    it decodes to a false value and 201 otherwise; for GET /api/data/{id},
    200 when an item carries the id and 404 when none does; 404 and 500 for
    the two error handlers. *)
Theorem status_by_route e c s :
  let r := fst (handle e c s) in
  match c with
  | GET_health | GET_root | GET_api_data | GET_api_status | DELETE_api_data =>
      status r = 200
  | POST_api_data request =>
      status r =
        if is_json request then
          match get_json request with
          | inl _ => 500
          | inr j => if truthy j then 201 else 400
          end
        else 400
  | GET_api_data_id i =>
      status r = if existsb (fun item => id item =? i) s then 200 else 404
  | Unmatched _ => status r = 404
  | Failure => status r = 500
  end.
Proof.
  destruct c as [ | | | request | item_id | | | request | ]; cbn [handle];
    try reflexivity.
  - create_cases request; reflexivity.
  - unfold get_data_by_id, find_item.
    destruct (find (fun item => id item =? item_id) s) as [it | ] eqn:E; cbn [fst status with_status].
    + apply find_some in E as [Hin E].
      replace (existsb (fun item => id item =? item_id) s) with true; [reflexivity | ].
      symmetry. apply existsb_exists. eauto.
    + replace (existsb (fun item => id item =? item_id) s) with false; [reflexivity | ].
      symmetry. apply not_true_is_false. intros H.
      apply existsb_exists in H as (it & Hin & H).
      apply (find_none _ _ E) in Hin. cbn in Hin. congruence.
Qed.

(** X3.  The envelope follows the status: a response of status 400 or more
    has [success] false and a string under [error]; a response below 400 has
    no [error] key, and its [success], when it has one, is true. *)
Theorem envelope_by_status e c s :
  let r := fst (handle e c s) in
  if (400 <=? status r)%nat then
    field "success" r = Some (JBool false) /\
    exists msg, field "error" r = Some (JString msg)
  else
    field "error" r = None /\
    (field "success" r = None \/ field "success" r = Some (JBool true)).
Proof.
  destruct c as [ | | | request | item_id | | | request | ]; cbn [handle];
    try (cbn; split; [reflexivity | eauto]).
  - create_cases request; cbn; split; eauto.
  - unfold get_data_by_id. destruct (find_item item_id s); cbn; split; eauto.
Qed.

(** X4.  Headers: every response is of content type [application/json], set
    once; GET /api/data forbids caching with [Cache-Control], [Pragma] and
    [Expires]; the 201 of POST /api/data carries [Cache-Control: no-cache];
    no other response carries [Cache-Control]. *)
Theorem headers_by_route e c s :
  let r := fst (handle e c s) in
  header "Content-Type" r = Some "application/json" /\
  NoDup (map fst (headers r)) /\
  header "Cache-Control" r =
    match c with
    | GET_api_data => Some "no-cache, no-store, must-revalidate"
    | POST_api_data _ => if (status r =? 201)%nat then Some "no-cache" else None
    | _ => None
    end /\
  match c with
  | GET_api_data => header "Pragma" r = Some "no-cache" /\ header "Expires" r = Some "0"
  | _ => header "Pragma" r = None /\ header "Expires" r = None
  end.
Proof.
  assert (NoDup ["Content-Type"]) as N1 by (repeat constructor; cbn; tauto).
  destruct c as [ | | | request | item_id | | | request | ]; cbn [handle];
    try (cbn; repeat split; exact N1).
  - cbn. repeat split. repeat constructor; cbn; intuition discriminate.
  - create_cases request; cbn; repeat split; try exact N1.
    repeat constructor; cbn; intuition discriminate.
  - unfold get_data_by_id. destruct (find_item item_id s); cbn; repeat split; exact N1.
Qed.

(** * Identity of stored items *)

Lemma created_is_post e c s :
  created (c, fst (handle e c s)) = true -> exists request, c = POST_api_data request.
Proof.
  destruct c as [ | | | request | item_id | | | request | ]; cbn [handle];
    try (cbn; discriminate).
  - eauto.
  - unfold get_data_by_id. destruct (find_item item_id s); cbn; discriminate.
Qed.

Lemma drawn_cons e c t :
  drawn ((e, c) :: t) =
    (match c with
     | POST_api_data _ => [uuid4 e]
     | _ => []
     end ++ drawn t)%list.
Proof. reflexivity. Qed.

(** X5.  Ids stay unique: when the ids in the store and the ids the uuid
    source gives to the POSTs of a run are pairwise distinct, the ids in the
    store after the run are pairwise distinct, whatever the run does. *)
Theorem ids_stay_unique t : forall s,
  NoDup (map id s ++ drawn t) ->
  NoDup (map id (snd (run t s))).
Proof.
  induction t as [ | [e c] t IH]; intros s Hnd.
  - cbn in *. rewrite app_nil_r in Hnd. exact Hnd.
  - rewrite run_cons. cbn [snd]. rewrite drawn_cons in Hnd.
    assert (NoDup (map id s ++ drawn t)) as Hrest.
    { destruct c; cbn [app] in Hnd; try exact Hnd.
      apply NoDup_remove_1 in Hnd. exact Hnd. }
    pose proof (handle_step e c s) as H. pose proof (created_is_post e c s) as Hpost.
    destruct (handle e c s) as [r s1]. cbn [fst snd] in *.
    destruct H as [(_ & _ & ->) | [(_ & _ & ->) | (_ & Hcr & it & -> & Hid & _)]].
    + apply IH, Hrest.
    + apply IH. cbn [map app]. apply NoDup_app_remove_l in Hrest. exact Hrest.
    + apply IH. destruct (Hpost Hcr) as [request ->].
      rewrite map_app, <- app_assoc. cbn [map app] in *. rewrite Hid. exact Hnd.
Qed.

Lemma ids_stay_unique_witness :
  NoDup (map id (snd (run [(env1, POST_api_data (json_post widget)); (env1, GET_api_data);
                           (env2, POST_api_data (json_post (JInt 3)))]
                          data_store0))).
Proof.
  apply (ids_stay_unique [(env1, POST_api_data (json_post widget)); (env1, GET_api_data);
                          (env2, POST_api_data (json_post (JInt 3)))] data_store0).
  cbn. repeat constructor; cbn; intuition discriminate.
Defined.

(** X6.  GET /api/data/{id} answers 200 exactly when some stored item carries
    the id and 404 exactly when none does; either way the store is left as it
    was. *)
Theorem get_by_id_status_iff e i s :
  let r := fst (get_data_by_id e i s) in
  (status r = 200 <-> In i (map id s)) /\
  (status r = 404 <-> ~ In i (map id s)) /\
  snd (get_data_by_id e i s) = s.
Proof.
  cbn zeta. unfold get_data_by_id.
  destruct (find_item i s) as [it | ] eqn:E; cbn [fst snd status with_status].
  - assert (In i (map id s)) as Hin by (apply find_item_some_iff; eauto).
    repeat split; auto; try discriminate. intros H. contradiction.
  - assert (~ In i (map id s)) as Hout.
    { intros Hin. apply find_item_some_iff in Hin as [it Hit]. congruence. }
    repeat split; auto; try discriminate. intros H. contradiction.
Qed.

Lemma get_by_id_behind_fresh e it s1 s2 :
  ~ In (id it) (map id s1) ->
  fst (get_data_by_id e (id it) (s1 ++ it :: s2)%list) =
    with_status (jsonify [("success", JBool true);
                          ("item", item_dict it);
                          ("timestamp", JString (isoformat (now e)))]) 200.
Proof.
  intros Hfresh. unfold get_data_by_id.
  rewrite find_item_app_fresh by exact Hfresh. rewrite find_item_head. reflexivity.
Qed.

(** X7.  The lookup returns the first item carrying the id: an item stored
    behind items of other ids is the one GET /api/data/{its id} returns, also
    when a later item carries the same id. *)
Theorem get_by_id_first_match e it s1 s2 :
  ~ In (id it) (map id s1) ->
  let r := fst (get_data_by_id e (id it) (s1 ++ it :: s2)%list) in
  status r = 200 /\ field "item" r = Some (item_dict it).
Proof.
  intros Hfresh. cbn zeta. rewrite (get_by_id_behind_fresh e it s1 s2 Hfresh).
  split; reflexivity.
Qed.

Lemma get_by_id_first_match_witness :
  let it := {| id := "k1"; data := JInt 1; created_at := "2024-05-17T12:00:09";
               created_by := Some "10.0.0.7" |} in
  let r := fst (get_data_by_id env1 (id it) ([] ++ it :: tl twin_store)%list) in
  status r = 200 /\ field "item" r = Some (item_dict it).
Proof.
  apply (get_by_id_first_match env1
           {| id := "k1"; data := JInt 1; created_at := "2024-05-17T12:00:09";
              created_by := Some "10.0.0.7" |}
           [] (tl twin_store)).
  cbn. tauto.
Defined.

(** X8.  Listing and lookup agree: in a store whose ids are pairwise
    distinct, every item that GET /api/data lists is the item that GET
    /api/data/{its id} returns. *)
Theorem listed_item_found e it s :
  NoDup (map id s) ->
  In it s ->
  let r := fst (get_data_by_id e (id it) s) in
  status r = 200 /\ field "item" r = Some (item_dict it).
Proof.
  intros Hnd Hin. apply in_split in Hin as (s1 & s2 & ->).
  cbn zeta. rewrite get_by_id_behind_fresh; [split; reflexivity | ].
  rewrite map_app in Hnd. cbn [map] in Hnd. apply NoDup_remove_2 in Hnd.
  intros H. apply Hnd. apply in_or_app. left. exact H.
Qed.

Lemma listed_item_found_witness :
  let s := snd (run [(env1, POST_api_data (json_post widget));
                     (env2, POST_api_data (json_post (JInt 3)))] data_store0) in
  let it := {| id := uuid4 env2; data := JInt 3; created_at := isoformat (now env2);
               created_by := Some "10.0.0.7" |} in
  let r := fst (get_data_by_id env1 (id it) s) in
  status r = 200 /\ field "item" r = Some (item_dict it).
Proof.
  apply (listed_item_found env1
           {| id := uuid4 env2; data := JInt 3; created_at := isoformat (now env2);
              created_by := Some "10.0.0.7" |}
           (snd (run [(env1, POST_api_data (json_post widget));
                      (env2, POST_api_data (json_post (JInt 3)))] data_store0))).
  - cbn. repeat constructor; cbn; intuition discriminate.
  - cbn. right. left. reflexivity.
Defined.

(** * Sequences of requests *)

Lemma run_app t1 : forall t2 s,
  run (t1 ++ t2)%list s =
    ((fst (run t1 s) ++ fst (run t2 (snd (run t1 s))))%list,
     snd (run t2 (snd (run t1 s)))).
Proof.
  induction t1 as [ | [e c] t1 IH]; intros t2 s.
  - cbn [app run fst snd]. destruct (run t2 s). reflexivity.
  - cbn [app]. rewrite !run_cons, IH. reflexivity.
Qed.

Lemma created_total e c s :
  created (c, fst (handle e c s)) = true ->
  field "total_items" (fst (handle e c s)) = Some (JInt (Z.of_nat (length s + 1))).
Proof.
  destruct c as [ | | | request | item_id | | | request | ]; cbn [handle];
    try (cbn; discriminate).
  - create_cases request; cbn - [Z.of_nat]; try discriminate.
    intros _. unfold JLen. rewrite length_app. reflexivity.
  - unfold get_data_by_id. destruct (find_item item_id s); cbn; discriminate.
Qed.

Lemma reported_totals_from t : forall s,
  no_delete t = true ->
  reported_totals (fst (run t s)) =
    map (fun k => JInt (Z.of_nat k))
        (seq (length s + 1) (length (successes (fst (run t s))))).
Proof.
  induction t as [ | [e c] t IH]; intros s Hnd.
  - reflexivity.
  - cbn [no_delete forallb snd] in Hnd. apply andb_prop in Hnd as [Hc Ht].
    fold (no_delete t) in Ht. apply negb_true_iff in Hc.
    rewrite run_cons. pose proof (handle_step e c s) as H.
    pose proof (created_total e c s) as Htot.
    destruct (handle e c s) as [r s1]. cbn [fst snd] in *.
    unfold reported_totals. rewrite successes_cons.
    destruct H as [(_ & Hcr & ->) | [(Hd & _) | (_ & Hcr & it & -> & _)]];
      [ | congruence | ]; rewrite Hcr.
    + apply IH, Ht.
    + cbn [flat_map snd length seq map]. rewrite (Htot Hcr). cbn [app]. f_equal.
      fold (reported_totals (fst (run t (s ++ [it])%list))).
      rewrite (IH _ Ht), length_app. cbn [length].
      replace (S (length s + 1)) with (length s + 1 + 1) by lia. reflexivity.
Qed.

(** X9.  From the empty store, in a run without DELETE, the successful POSTs
    report [total_items] 1, 2, 3, ... in the order they are served: the k-th
    201 reports k, whatever other requests come between. *)
Theorem total_items_count_up t :
  no_delete t = true ->
  let log := fst (run t data_store0) in
  reported_totals log = map (fun k => JInt (Z.of_nat k)) (seq 1 (length (successes log))).
Proof. intros Hnd. apply (reported_totals_from t data_store0 Hnd). Qed.

Lemma total_items_count_up_witness :
  let t := [(env1, POST_api_data (json_post widget)); (env2, POST_api_data empty_post);
            (env2, GET_api_data); (env2, POST_api_data (json_post (JInt 3)))] in
  let log := fst (run t data_store0) in
  reported_totals log = [JInt 1; JInt 2] /\
  reported_totals log = map (fun k => JInt (Z.of_nat k)) (seq 1 (length (successes log))).
Proof.
  split; [reflexivity | ].
  apply (total_items_count_up
           [(env1, POST_api_data (json_post widget)); (env2, POST_api_data empty_post);
            (env2, GET_api_data); (env2, POST_api_data (json_post (JInt 3)))]).
  reflexivity.
Defined.

(** X10.  A stored item is never changed: when POST /api/data answers 201
    under a fresh id, then after any further requests other than DELETE, GET
    /api/data/{id} returns the very item the POST returned, with the same id,
    data, created_at and created_by. *)
Theorem item_unchanged e request s t e' :
  status (fst (create_data e request s)) = 201 ->
  ~ In (uuid4 e) (map id s) ->
  no_delete t = true ->
  exists it,
    field "item" (fst (create_data e request s)) = Some it /\
    field "item" (fst (get_data_by_id e' (uuid4 e)
                         (snd (run t (snd (create_data e request s)))))) = Some it.
Proof.
  intros H201 Hfresh Hnd.
  destruct (created_inv e request s H201) as (Hj & j & Hget & Htrue).
  rewrite (create_data_created e request s j Hj Hget Htrue). cbn [fst snd].
  set (it := {| id := uuid4 e; data := j; created_at := isoformat (now e);
                created_by := remote_addr request |}).
  destruct (run_no_delete t (s ++ [it])%list Hnd) as (items & -> & _).
  exists (item_dict it). split; [reflexivity | ].
  rewrite <- app_assoc. cbn [app].
  change (uuid4 e) with (id it).
  rewrite (get_by_id_behind_fresh e' it s items Hfresh). reflexivity.
Qed.

Lemma item_unchanged_witness :
  exists it,
    field "item" (fst (create_data env1 (json_post widget) data_store0)) = Some it /\
    field "item" (fst (get_data_by_id env2 (uuid4 env1)
                         (snd (run [(env2, POST_api_data (json_post (JInt 3)));
                                    (env2, GET_api_status)]
                                   (snd (create_data env1 (json_post widget) data_store0))))))
      = Some it.
Proof.
  apply (item_unchanged env1 (json_post widget) data_store0
           [(env2, POST_api_data (json_post (JInt 3))); (env2, GET_api_status)] env2).
  - reflexivity.
  - cbn. tauto.
  - reflexivity.
Defined.

(** X11.  DELETE /api/data erases the history: the responses and the store
    that follow a DELETE are those of the same requests served from the empty
    store, whatever came before the DELETE. *)
Theorem delete_erases_history t1 e t2 s :
  run (t1 ++ (e, DELETE_api_data) :: t2)%list s =
    ((fst (run t1 s) ++
      (DELETE_api_data, fst (clear_data e (snd (run t1 s)))) :: fst (run t2 data_store0))%list,
     snd (run t2 data_store0)).
Proof. rewrite run_app, run_cons. reflexivity. Qed.

(** X12.  DELETE /api/data reports what was created: from the empty store,
    after a run without DELETE in which N POSTs were answered 201, DELETE
    answers [Cleared N items]; a DELETE right after it answers [Cleared 0
    items]. *)
Theorem delete_reports_created t e e' :
  no_delete t = true ->
  let log := fst (run t data_store0) in
  let s := snd (run t data_store0) in
  field "message" (fst (clear_data e s)) =
    Some (JString ("Cleared " ++ str_int (length (successes log)) ++ " items")) /\
  field "message" (fst (clear_data e' (snd (clear_data e s)))) =
    Some (JString ("Cleared " ++ str_int 0 ++ " items")).
Proof.
  intros Hnd. cbn zeta.
  destruct (run_no_delete t data_store0 Hnd) as (items & Hs & _ & _ & Hl).
  cbn [app data_store0] in Hs. rewrite Hs, <- Hl. split; reflexivity.
Qed.

Lemma delete_reports_created_witness :
  let t := [(env1, POST_api_data (json_post widget)); (env2, POST_api_data text_post);
            (env2, POST_api_data (json_post (JInt 3)))] in
  let log := fst (run t data_store0) in
  let s := snd (run t data_store0) in
  field "message" (fst (clear_data env1 s)) = Some (JString "Cleared 2 items") /\
  (field "message" (fst (clear_data env1 s)) =
     Some (JString ("Cleared " ++ str_int (length (successes log)) ++ " items")) /\
   field "message" (fst (clear_data env2 (snd (clear_data env1 s)))) =
     Some (JString ("Cleared " ++ str_int 0 ++ " items"))).
Proof.
  split; [reflexivity | ].
  apply (delete_reports_created
           [(env1, POST_api_data (json_post widget)); (env2, POST_api_data text_post);
            (env2, POST_api_data (json_post (JInt 3)))] env1 env2).
  reflexivity.
Defined.

(** X13.  The listing and the status report agree on every store: [count] of
    GET /api/data, the number of elements of its [data] array and
    [statistics.total_items] of GET /api/status are the length of the store. *)
Theorem count_agrees_with_status e1 e2 s :
  field "count" (fst (get_data e1 s)) = Some (JInt (Z.of_nat (length s))) /\
  statistics_total_items (fst (get_status e2 s)) = field "count" (fst (get_data e1 s)) /\
  exists l, field "data" (fst (get_data e1 s)) = Some (JArray l) /\ length l = length s.
Proof.
  repeat split. exists (map item_dict s). split; [reflexivity | apply length_map].
Qed.

(** * What a rejected POST does not look at *)

(** X14.  A POST that is not JSON is answered without reading its body, its
    sender, the clock or the uuid source: any two such requests get the same
    response from the same store, and the store is left as it was. *)
Theorem non_json_post_ignores_request e e' request request' s :
  is_json request = false ->
  is_json request' = false ->
  create_data e request s = create_data e' request' s /\
  snd (create_data e request s) = s.
Proof.
  intros H H'.
  rewrite (create_data_not_json e request s H), (create_data_not_json e' request' s H').
  split; reflexivity.
Qed.

Lemma non_json_post_ignores_request_witness :
  create_data env1 text_post twin_store =
    create_data env2 {| is_json := false; get_json := inr widget; remote_addr := None;
                        url := "http://api/api/data"; path := "/api/data" |} twin_store /\
  snd (create_data env1 text_post twin_store) = twin_store.
Proof.
  apply (non_json_post_ignores_request env1 env2 text_post
           {| is_json := false; get_json := inr widget; remote_addr := None;
              url := "http://api/api/data"; path := "/api/data" |} twin_store);
    reflexivity.
Defined.

(** X15.  A POST that is not answered 201 uses neither the clock nor the uuid
    source: its response and the store after it are the same under any other
    readings of them. *)
Theorem rejected_post_ignores_env e e' request s :
  status (fst (create_data e request s)) <> 201 ->
  create_data e request s = create_data e' request s.
Proof.
  create_cases request; cbn; intros H; try reflexivity. contradiction H. reflexivity.
Qed.

Lemma rejected_post_ignores_env_witness :
  create_data env1 empty_post twin_store = create_data env2 empty_post twin_store.
Proof.
  apply (rejected_post_ignores_env env1 env2 empty_post twin_store).
  cbn. discriminate.
Defined.
